(** * cephadm tracing services (jaeger.py): endpoint discovery and
      configuration of the Jaeger agent, collector and query daemons.

    Shallow embedding of [src/pybind/mgr/cephadm/services/jaeger.py].
    Python lists are Rocq lists, [str] is [string] (compared by code point,
    as Python does), the one-key configuration dictionaries are [gmap]s,
    [Optional] attributes are [option]s, a failing [assert] or dictionary
    lookup is an explicit error value, and the in-place updates of the
    [daemon_spec] object are threaded through a small state-and-error
    monad. *)

From Stdlib Require Import Ascii.
From stdpp Require Import base strings list sorting gmap pretty.

Open Scope Z_scope.

(** ** Errors

    Every failure of the module is a failed [assert] (or a failed dictionary
    subscript).  The constructors name the failing site. *)
Inductive error : Type :=
| TypeMismatch          (* assert self.TYPE == daemon_spec.daemon_type *)
| InvariantViolation    (* assert dd.hostname is not None *)
| MissingConfiguration  (* assert spec.es_nodes is not None *)
| KeyError.             (* active_specs[daemon_spec.service_name], unknown name *)

Inductive result (A : Type) : Type :=
| Ok (a : A)
| Raise (e : error).
Arguments Ok {A} a.
Arguments Raise {A} e.

#[global] Instance error_eq_dec : EqDecision error.
Proof. solve_decision. Defined.

#[global] Instance result_ret : MRet result := @Ok.
#[global] Instance result_bind : MBind result := λ A B f m,
  match m with
  | Ok a => f a
  | Raise e => Raise e
  end.

(** [assert o is not None], giving the value back. *)
Definition assert_not_None {A} (o : option A) (e : error) : result A :=
  match o with
  | Some a => Ok a
  | None => Raise e
  end.

(** [for x in xs: body], the loop state [s] being the list the body appends
    to; an exception raised by the body leaves the loop. *)
Fixpoint for_in {A S} (xs : list A) (body : A → S → result S) (s : S)
  : result S :=
  match xs with
  | [] => Ok s
  | x :: xs' => s' ← body x s; for_in xs' body s'
  end.

(** ** Python string primitives *)

Fixpoint char_in (c : ascii) (chars : string) : bool :=
  match chars with
  | EmptyString => false
  | String c' chars' => Ascii.eqb c c' || char_in c chars'
  end.

(** [s.lstrip(chars)]: drop the longest prefix made of characters of
    [chars]. *)
Fixpoint lstrip (chars : string) (s : string) : string :=
  match s with
  | EmptyString => EmptyString
  | String c s' => if char_in c chars then lstrip chars s' else s
  end.

(** [s.split(sep)] for a one-character separator: every occurrence splits,
    empty tokens are kept, and the empty string gives one empty token. *)
Fixpoint split (sep : ascii) (s : string) : list string :=
  match s with
  | EmptyString => [EmptyString]
  | String c s' =>
      if Ascii.eqb c sep then EmptyString :: split sep s'
      else match split sep s' with
           | tok :: toks => String c tok :: toks
           | [] => [String c EmptyString]
           end
  end.

(** [sep.join(l)] is [String.concat sep l]. *)

(** [sorted(l)] on strings.  Python compares strings by code point, which is
    [String.le]; that order is total and antisymmetric, so the ascending
    arrangement of a list is unique and the sorting algorithm is immaterial
    (see [sorted_unique] below). *)
Definition sorted (l : list string) : list string := merge_sort String.le l.

(** ** Data model *)

(** Modelled from the spec: the class [DaemonDescription] is declared outside
    this file.  The spec lists its attributes: the service type tag, the
    hostname (the code asserts it [is not None], so it is optional), an
    optional ip, and an ordered, possibly empty sequence of ports. *)
Record DaemonDescription : Type := {
  daemon_type : string;
  hostname : option string;
  ip : option string;
  ports : list Z
}.

(** Modelled from the spec: [TracingSpec] is declared outside this file; its
    relevant attribute is the optional comma-separated string [es_nodes]. *)
Record TracingSpec : Type := {
  es_nodes : option string
}.

(** Modelled from the spec: the orchestrator [mgr] is consumed through three
    narrow interfaces: the daemon cache (the daemon records in iteration
    order), the inventory lookup [mgr.inventory.get_addr], and the spec
    store [mgr.spec_store.active_specs], a dictionary keyed by service
    name. *)
Record CephadmOrchestrator : Type := {
  cache : list DaemonDescription;
  get_addr : string → string;
  active_specs : gmap string TracingSpec
}.

(** Modelled from the spec: [mgr.cache.get_daemons_by_type] is the
    cluster-state cache query; it yields the records whose service type
    matches, in the iteration order of the cache. *)
Definition get_daemons_by_type (mgr : CephadmOrchestrator) (service_type : string)
  : list DaemonDescription :=
  filter (λ dd, daemon_type dd = service_type) (cache mgr).

(** Modelled from the spec: the class [CephadmDaemonDeploySpec] is declared
    outside this file.  The builders read its [daemon_type] (here
    [spec_daemon_type]) and [service_name], and assign the configuration map
    [final_config], unset ([None]) until then, and the dependency list
    [deps]. *)
Record CephadmDaemonDeploySpec : Type := {
  spec_daemon_type : string;
  service_name : string;
  final_config : option (gmap string string);
  deps : list string
}.

(** [from mgr_util import build_url]: the host:port formatter is an imported
    helper; the development is parametric in it. *)
Class MgrUtil : Type := {
  build_url : string → Z → string
}.

(** Modelled from the spec: [build_url(host=h, port=p)] is the canonical
    host:port formatter; without a scheme it leaves a leading path separator
    artifact, which the callers strip. *)
Definition build_url_spec (host : string) (port : Z) : string :=
  "//" +:+ host +:+ ":" +:+ pretty port.

(** ** The state-and-error monad of the builders

    A builder receives the [daemon_spec] object, may assign its attributes,
    and either returns it or raises.  The first component of the outcome is
    the object as the call leaves it, in both cases. *)
Definition M (A : Type) : Type :=
  CephadmDaemonDeploySpec → CephadmDaemonDeploySpec * result A.

#[global] Instance M_ret : MRet M := λ A a ds, (ds, Ok a).
#[global] Instance M_bind : MBind M := λ A B f m ds,
  match m ds with
  | (ds', Ok a) => f a ds'
  | (ds', Raise e) => (ds', Raise e)
  end.

Definition gets {A} (f : CephadmDaemonDeploySpec → A) : M A :=
  λ ds, (ds, Ok (f ds)).

Definition lift {A} (r : result A) : M A := λ ds, (ds, r).

Definition assert_ (b : bool) (e : error) : M unit :=
  λ ds, (ds, if b then Ok () else Raise e).

(** [daemon_spec.final_config = cfg] *)
Definition set_final_config (cfg : gmap string string) : M unit :=
  λ ds, ({| spec_daemon_type := spec_daemon_type ds;
            service_name := service_name ds;
            final_config := Some cfg;
            deps := deps ds |}, Ok ()).

(** [daemon_spec.deps = l] *)
Definition set_deps (l : list string) : M unit :=
  λ ds, ({| spec_daemon_type := spec_daemon_type ds;
            service_name := service_name ds;
            final_config := final_config ds;
            deps := l |}, Ok ()).

(** ** The services *)

Module ElasticSearchService.

Definition TYPE : string := "elasticsearch".
Definition DEFAULT_SERVICE_PORT : Z := 9200.

Definition prepare_create (mgr : CephadmOrchestrator) : M unit :=
  ty ← gets spec_daemon_type;
  assert_ (String.eqb TYPE ty) TypeMismatch.

End ElasticSearchService.

Section get_elasticsearch_nodes.
Context `{U : MgrUtil}.

(** [get_elasticsearch_nodes(service, daemon_spec)]; of [service] only
    [service.mgr] is used, of [daemon_spec] only [service_name]. *)
Definition get_elasticsearch_nodes (mgr : CephadmOrchestrator)
    (daemon_spec : CephadmDaemonDeploySpec) : result (list string) :=
  elasticsearch_nodes ←
    for_in (get_daemons_by_type mgr ElasticSearchService.TYPE)
      (λ dd elasticsearch_nodes,
         h ← assert_not_None (hostname dd) InvariantViolation;
         let addr := match ip dd with
                     | Some (String _ _ as a) => a
                     | _ => get_addr mgr h
                     end in
         let port := match ports dd with
                     | p :: _ => p
                     | [] => ElasticSearchService.DEFAULT_SERVICE_PORT
                     end in
         let url := lstrip "/" (build_url addr port) in
         Ok (elasticsearch_nodes ++ ["http://" +:+ url]))
      [];
  match elasticsearch_nodes with
  | [] =>
      (* takes elasticsearch address from TracingSpec *)
      spec ← assert_not_None (active_specs mgr !! service_name daemon_spec) KeyError;
      nodes ← assert_not_None (es_nodes spec) MissingConfiguration;
      let urls := split ","%char nodes in
      for_in urls
        (λ url elasticsearch_nodes, Ok (elasticsearch_nodes ++ ["http://" +:+ url]))
        elasticsearch_nodes
  | _ :: _ => Ok elasticsearch_nodes
  end.

End get_elasticsearch_nodes.

Module JaegerCollectorService.
Section defs.
Context `{U : MgrUtil}.

Definition TYPE : string := "jaeger-collector".
Definition DEFAULT_SERVICE_PORT : Z := 14250.

Definition prepare_create (mgr : CephadmOrchestrator) : M unit :=
  ty ← gets spec_daemon_type;
  assert_ (String.eqb TYPE ty) TypeMismatch;;
  daemon_spec ← gets id;
  elasticsearch_nodes ← lift (get_elasticsearch_nodes mgr daemon_spec);
  set_final_config {[ "elasticsearch_nodes" := String.concat "," elasticsearch_nodes ]}.

End defs.
End JaegerCollectorService.

Module JaegerQueryService.
Section defs.
Context `{U : MgrUtil}.

Definition TYPE : string := "jaeger-query".
Definition DEFAULT_SERVICE_PORT : Z := 16686.

Definition prepare_create (mgr : CephadmOrchestrator) : M unit :=
  ty ← gets spec_daemon_type;
  assert_ (String.eqb TYPE ty) TypeMismatch;;
  daemon_spec ← gets id;
  elasticsearch_nodes ← lift (get_elasticsearch_nodes mgr daemon_spec);
  set_final_config {[ "elasticsearch_nodes" := String.concat "," elasticsearch_nodes ]}.

End defs.
End JaegerQueryService.

Module JaegerAgentService.
Section defs.
Context `{U : MgrUtil}.

Definition TYPE : string := "jaeger-agent".
Definition DEFAULT_SERVICE_PORT : Z := 6799.

(** The classmethod [get_dependencies(cls, mgr, spec=None, daemon_type=None)]. *)
Definition get_dependencies (mgr : CephadmOrchestrator)
    (spec : option TracingSpec) (daemon_type : option string)
  : result (list string) :=
  deps ←
    for_in (get_daemons_by_type mgr JaegerCollectorService.TYPE)
      (λ dd deps,
         (* scrape jaeger-collector nodes *)
         h ← assert_not_None (hostname dd) InvariantViolation;
         let port := match ports dd with
                     | p :: _ => p
                     | [] => JaegerCollectorService.DEFAULT_SERVICE_PORT
                     end in
         let url := lstrip "/" (build_url h port) in
         Ok (deps ++ [url]))
      [];
  Ok (sorted deps).

Definition prepare_create (mgr : CephadmOrchestrator) : M unit :=
  ty ← gets spec_daemon_type;
  assert_ (String.eqb TYPE ty) TypeMismatch;;
  collectors ←
    lift (for_in (get_daemons_by_type mgr JaegerCollectorService.TYPE)
      (λ dd collectors,
         (* scrape jaeger-collector nodes *)
         h ← assert_not_None (hostname dd) InvariantViolation;
         let port := match ports dd with
                     | p :: _ => p
                     | [] => JaegerCollectorService.DEFAULT_SERVICE_PORT
                     end in
         let url := lstrip "/" (build_url h port) in
         Ok (collectors ++ [url]))
      []);
  set_final_config {[ "collector_nodes" := String.concat "," collectors ]};;
  deps ← lift (get_dependencies mgr None None);
  set_deps deps.

End defs.
End JaegerAgentService.

(** The instance of the imported helpers used by the concrete scenarios. *)
#[global] Instance mgr_util_spec : MgrUtil := {| build_url := build_url_spec |}.

(** ** Concrete scenarios *)

Definition collector (host : string) (ps : list Z) : DaemonDescription :=
  {| daemon_type := "jaeger-collector"; hostname := Some host; ip := None; ports := ps |}.

Definition mk_mgr (dds : list DaemonDescription) (specs : gmap string TracingSpec)
  : CephadmOrchestrator :=
  {| cache := dds; get_addr := λ h, "addr-of-" +:+ h; active_specs := specs |}.

Definition fresh_spec (ty name : string) : CephadmDaemonDeploySpec :=
  {| spec_daemon_type := ty; service_name := name; final_config := None; deps := [] |}.

(** The value stored under [key] in the configuration the builder emitted, if
    any. *)
Definition config_value (ds : CephadmDaemonDeploySpec) (key : string) : option string :=
  cfg ← final_config ds; cfg !! key.

(** The orchestrator with another spec store, another inventory, another
    cache. *)
Definition with_active_specs (mgr : CephadmOrchestrator) (specs : gmap string TracingSpec)
  : CephadmOrchestrator :=
  {| cache := cache mgr; get_addr := get_addr mgr; active_specs := specs |}.

Definition with_get_addr (mgr : CephadmOrchestrator) (inv : string → string)
  : CephadmOrchestrator :=
  {| cache := cache mgr; get_addr := inv; active_specs := active_specs mgr |}.



(** ** Vocabulary of the statements *)

Section vocabulary.
Context `{U : MgrUtil}.

(** The records the agent and the search-index resolver iterate over. *)
Definition collectors (mgr : CephadmOrchestrator) : list DaemonDescription :=
  get_daemons_by_type mgr JaegerCollectorService.TYPE.

Definition search_indexes (mgr : CephadmOrchestrator) : list DaemonDescription :=
  get_daemons_by_type mgr ElasticSearchService.TYPE.

(** The static fallback of [get_elasticsearch_nodes]. *)
Definition es_fallback (mgr : CephadmOrchestrator) (ds : CephadmDaemonDeploySpec)
  : result (list string) :=
  match active_specs mgr !! service_name ds with
  | None => Raise KeyError
  | Some spec =>
      match es_nodes spec with
      | None => Raise MissingConfiguration
      | Some nodes => Ok ((λ url, "http://" +:+ url) <$> split "," nodes)
      end
  end.

(** What a collector record contributes to the agent's lists. *)
Definition collector_endpoint (dd : DaemonDescription) : string :=
  lstrip "/" (build_url (default "" (hostname dd))
                (match ports dd with
                 | p :: _ => p
                 | [] => JaegerCollectorService.DEFAULT_SERVICE_PORT
                 end)).

(** What a search-index record contributes to [elasticsearch_nodes]. *)
Definition es_endpoint (mgr : CephadmOrchestrator) (dd : DaemonDescription) : string :=
  "http://" +:+
  lstrip "/" (build_url (match ip dd with
                         | Some (String _ _ as a) => a
                         | _ => get_addr mgr (default "" (hostname dd))
                         end)
                (match ports dd with
                 | p :: _ => p
                 | [] => ElasticSearchService.DEFAULT_SERVICE_PORT
                 end)).

Definition has_hostname (dd : DaemonDescription) : Prop := is_Some (hostname dd).

#[global] Instance has_hostname_dec dd : Decision (has_hostname dd).
Proof. unfold has_hostname. apply _. Defined.

(** The collector builder and the query builder differ only in the expected
    daemon type. *)
Definition es_builder_outcome (ty : string) (mgr : CephadmOrchestrator)
    (ds : CephadmDaemonDeploySpec) : CephadmDaemonDeploySpec * result unit :=
  if String.eqb ty (spec_daemon_type ds)
  then match get_elasticsearch_nodes mgr ds with
       | Ok nodes =>
           ({| spec_daemon_type := spec_daemon_type ds;
               service_name := service_name ds;
               final_config :=
                 Some {[ "elasticsearch_nodes" := String.concat "," nodes ]};
               deps := deps ds |}, Ok ())
       | Raise e => (ds, Raise e)
       end
  else (ds, Raise TypeMismatch).

(** The three builders, by daemon kind. *)
Inductive daemon_kind : Type := Agent | Collector | Query.

Definition prepare_config (k : daemon_kind) : CephadmOrchestrator → M unit :=
  match k with
  | Agent => JaegerAgentService.prepare_create
  | Collector => JaegerCollectorService.prepare_create
  | Query => JaegerQueryService.prepare_create
  end.

(** The four services the module registers. *)
Inductive service : Type :=
| SvcElasticSearch
| SvcJaegerAgent
| SvcJaegerCollector
| SvcJaegerQuery.

Definition service_TYPE (s : service) : string :=
  match s with
  | SvcElasticSearch => ElasticSearchService.TYPE
  | SvcJaegerAgent => JaegerAgentService.TYPE
  | SvcJaegerCollector => JaegerCollectorService.TYPE
  | SvcJaegerQuery => JaegerQueryService.TYPE
  end.

Definition service_prepare_create (s : service) : CephadmOrchestrator → M unit :=
  match s with
  | SvcElasticSearch => ElasticSearchService.prepare_create
  | SvcJaegerAgent => JaegerAgentService.prepare_create
  | SvcJaegerCollector => JaegerCollectorService.prepare_create
  | SvcJaegerQuery => JaegerQueryService.prepare_create
  end.

(** [s.startswith(p)] *)
Fixpoint startswith (p s : string) : bool :=
  match p with
  | EmptyString => true
  | String a p' =>
      match s with
      | EmptyString => false
      | String b s' => Ascii.eqb a b && startswith p' s'
      end
  end.

(** A search-index record whose address comes from the inventory: its [ip]
    is [None] or empty. *)
Definition needs_lookup (dd : DaemonDescription) : Prop :=
  ip dd = None ∨ ip dd = Some "".

End vocabulary.

(** * Properties *)

(** ** Sorting *)

Lemma sorted_Sorted l : Sorted String.le (sorted l).
Proof. apply (Sorted_merge_sort String.le). Qed.

Lemma sorted_Permutation l : sorted l ≡ₚ l.
Proof. apply merge_sort_Permutation. Qed.

(** The ascending arrangement of a list of strings is unique: whatever
    algorithm [sorted] runs, this is its result. *)
Lemma sorted_unique l l' : Sorted String.le l' → l' ≡ₚ l → l' = sorted l.
Proof.
  intros Hs Hp. apply (Sorted_unique String.le); auto using sorted_Sorted.
  by rewrite sorted_Permutation.
Qed.

Lemma sorted_perm_eq l l' : l ≡ₚ l' → sorted l = sorted l'.
Proof.
  intros Hp. apply sorted_unique; [apply sorted_Sorted|].
  by rewrite sorted_Permutation.
Qed.

Lemma sorted_id l : Sorted String.le l → sorted l = l.
Proof. intros Hs. symmetry. by apply sorted_unique. Qed.

(** ** Loops *)

Lemma for_in_append_map {A B} (g : A → B) (xs : list A) (acc : list B) :
  for_in xs (λ x acc, Ok (acc ++ [g x])) acc = Ok (acc ++ (g <$> xs)).
Proof.
  revert acc. induction xs as [|x xs IH]; intros acc; simpl.
  - by rewrite app_nil_r.
  - rewrite IH. by rewrite <- app_assoc.
Qed.

Section properties.
Context `{U : MgrUtil}.

Lemma collector_loop_spec (dds : list DaemonDescription) (acc : list string) :
  for_in dds
    (λ dd deps,
       h ← assert_not_None (hostname dd) InvariantViolation;
       let port := match ports dd with
                   | p :: _ => p
                   | [] => JaegerCollectorService.DEFAULT_SERVICE_PORT
                   end in
       let url := lstrip "/" (build_url h port) in
       Ok (deps ++ [url])) acc
  = if decide (Forall has_hostname dds)
    then Ok (acc ++ (collector_endpoint <$> dds))
    else Raise InvariantViolation.
Proof.
  revert acc. induction dds as [|dd dds IH]; intros acc.
  - cbn [for_in fmap list_fmap]. rewrite decide_True by constructor. by rewrite app_nil_r.
  - cbn [for_in]. destruct (hostname dd) as [h|] eqn:Hh; cbn.
    + rewrite IH. destruct (decide (Forall has_hostname dds)) as [Hall|Hall].
      * rewrite decide_True.
        -- rewrite <- app_assoc. cbn. unfold collector_endpoint at 2. by rewrite Hh.
        -- constructor; [|done]. unfold has_hostname. rewrite Hh. eauto.
      * rewrite decide_False; [done|]. intros Hc. by inversion Hc.
    + rewrite decide_False; [done|]. intros Hc. inversion Hc as [|?? Hd].
      unfold has_hostname in Hd. rewrite Hh in Hd. by destruct Hd.
Qed.

Lemma es_loop_spec (mgr : CephadmOrchestrator) (dds : list DaemonDescription)
    (acc : list string) :
  for_in dds
    (λ dd elasticsearch_nodes,
       h ← assert_not_None (hostname dd) InvariantViolation;
       let addr := match ip dd with
                   | Some (String _ _ as a) => a
                   | _ => get_addr mgr h
                   end in
       let port := match ports dd with
                   | p :: _ => p
                   | [] => ElasticSearchService.DEFAULT_SERVICE_PORT
                   end in
       let url := lstrip "/" (build_url addr port) in
       Ok (elasticsearch_nodes ++ ["http://" +:+ url])) acc
  = if decide (Forall has_hostname dds)
    then Ok (acc ++ (es_endpoint mgr <$> dds))
    else Raise InvariantViolation.
Proof.
  revert acc. induction dds as [|dd dds IH]; intros acc.
  - cbn [for_in fmap list_fmap]. rewrite decide_True by constructor. by rewrite app_nil_r.
  - cbn [for_in]. destruct (hostname dd) as [h|] eqn:Hh; cbn.
    + rewrite IH. destruct (decide (Forall has_hostname dds)) as [Hall|Hall].
      * rewrite decide_True.
        -- rewrite <- app_assoc. cbn. unfold es_endpoint at 2. by rewrite Hh.
        -- constructor; [|done]. unfold has_hostname. rewrite Hh. eauto.
      * rewrite decide_False; [done|]. intros Hc. by inversion Hc.
    + rewrite decide_False; [done|]. intros Hc. inversion Hc as [|?? Hd].
      unfold has_hostname in Hd. rewrite Hh in Hd. by destruct Hd.
Qed.

(** ** What each function computes *)

Lemma get_dependencies_spec mgr spec dt :
  JaegerAgentService.get_dependencies mgr spec dt
  = if decide (Forall has_hostname (collectors mgr))
    then Ok (sorted (collector_endpoint <$> collectors mgr))
    else Raise InvariantViolation.
Proof.
  unfold JaegerAgentService.get_dependencies. rewrite collector_loop_spec.
  fold (collectors mgr). by destruct (decide _).
Qed.

Lemma agent_prepare_create_spec mgr ds :
  JaegerAgentService.prepare_create mgr ds
  = if String.eqb JaegerAgentService.TYPE (spec_daemon_type ds)
    then if decide (Forall has_hostname (collectors mgr))
         then ({| spec_daemon_type := spec_daemon_type ds;
                  service_name := service_name ds;
                  final_config :=
                    Some {[ "collector_nodes" :=
                              String.concat "," (collector_endpoint <$> collectors mgr) ]};
                  deps := sorted (collector_endpoint <$> collectors mgr) |}, Ok ())
         else (ds, Raise InvariantViolation)
    else (ds, Raise TypeMismatch).
Proof.
  unfold JaegerAgentService.prepare_create.
  rewrite get_dependencies_spec, collector_loop_spec. fold (collectors mgr).
  cbv [mbind M_bind gets assert_ lift set_final_config set_deps].
  destruct (String.eqb _ _); [|done].
  by destruct (decide _).
Qed.

Lemma get_elasticsearch_nodes_spec mgr ds :
  get_elasticsearch_nodes mgr ds
  = if decide (Forall has_hostname (search_indexes mgr))
    then match search_indexes mgr with
         | [] => es_fallback mgr ds
         | _ :: _ => Ok (es_endpoint mgr <$> search_indexes mgr)
         end
    else Raise InvariantViolation.
Proof.
  unfold get_elasticsearch_nodes. rewrite es_loop_spec. fold (search_indexes mgr).
  destruct (decide _) as [Hall|Hall]; [|done].
  cbn [mbind result_bind app]. destruct (search_indexes mgr) as [|dd dds]; [|done].
  cbn [fmap list_fmap]. unfold es_fallback.
  destruct (active_specs mgr !! service_name ds) as [spec|]; [|done].
  cbn. destruct (es_nodes spec) as [nodes|]; [|done].
  cbn. by rewrite for_in_append_map.
Qed.

Lemma collector_prepare_create_spec mgr ds :
  JaegerCollectorService.prepare_create mgr ds
  = es_builder_outcome JaegerCollectorService.TYPE mgr ds.
Proof.
  unfold JaegerCollectorService.prepare_create, es_builder_outcome.
  cbv [mbind M_bind gets assert_ lift set_final_config id].
  destruct (String.eqb _ _); [|done].
  by destruct (get_elasticsearch_nodes mgr ds).
Qed.

Lemma query_prepare_create_spec mgr ds :
  JaegerQueryService.prepare_create mgr ds
  = es_builder_outcome JaegerQueryService.TYPE mgr ds.
Proof.
  unfold JaegerQueryService.prepare_create, es_builder_outcome.
  cbv [mbind M_bind gets assert_ lift set_final_config id].
  destruct (String.eqb _ _); [|done].
  by destruct (get_elasticsearch_nodes mgr ds).
Qed.

Lemma collectors_Permutation m m' : cache m ≡ₚ cache m' → collectors m ≡ₚ collectors m'.
Proof. intros Hp. unfold collectors, get_daemons_by_type. by rewrite Hp. Qed.

Lemma get_dependencies_Permutation m m' spec dt :
  cache m ≡ₚ cache m' →
  JaegerAgentService.get_dependencies m spec dt
  = JaegerAgentService.get_dependencies m' spec dt.
Proof.
  intros Hp%collectors_Permutation. rewrite !get_dependencies_spec.
  destruct (decide (Forall has_hostname (collectors m))) as [Hall|Hall].
  - rewrite decide_True by (by rewrite <- Hp).
    f_equal. apply sorted_perm_eq. by rewrite Hp.
  - rewrite decide_False by (by rewrite <- Hp). done.
Qed.

(** C1 (as amended).  For every content of the daemon cache and every
    permutation of its iteration order, the dependency list of the agent
    (what [get_dependencies] returns and what [prepare_create] stores in
    [daemon_spec.deps]) is the same list, sorted ascending; the
    [collector_nodes] value is the comma-join of the collector endpoints in
    the iteration order of the cache.  For collectors registered in the
    order a, b the value is "a:14250,b:14250", and the dependency list is
    ["a:14250"; "b:14250"] for both registration orders. *)
Theorem C1_dependency_list_sorted (m m' : CephadmOrchestrator)
    (spec : option TracingSpec) (dt : option string) :
  cache m ≡ₚ cache m' →
  JaegerAgentService.get_dependencies m spec dt
  = JaegerAgentService.get_dependencies m' spec dt
  ∧ (∀ l, JaegerAgentService.get_dependencies m spec dt = Ok l → Sorted String.le l)
  ∧ (∀ ds, deps (JaegerAgentService.prepare_create m ds).1
           = deps (JaegerAgentService.prepare_create m' ds).1)
  ∧ (∀ ds ds', JaegerAgentService.prepare_create m ds = (ds', Ok ()) →
       Sorted String.le (deps ds')
       ∧ config_value ds' "collector_nodes"
         = Some (String.concat "," (collector_endpoint <$> collectors m)))
  ∧ (let ab := mk_mgr [collector "a" [14250]; collector "b" [14250]] ∅ in
     let ba := mk_mgr [collector "b" [14250]; collector "a" [14250]] ∅ in
     let ds := fresh_spec "jaeger-agent" "jaeger" in
     JaegerAgentService.get_dependencies (U := mgr_util_spec) ab None None
     = Ok ["a:14250"; "b:14250"]
     ∧ JaegerAgentService.get_dependencies (U := mgr_util_spec) ba None None
       = Ok ["a:14250"; "b:14250"]
     ∧ deps (JaegerAgentService.prepare_create (U := mgr_util_spec) ba ds).1
       = ["a:14250"; "b:14250"]
     ∧ config_value (JaegerAgentService.prepare_create (U := mgr_util_spec) ab ds).1
         "collector_nodes" = Some "a:14250,b:14250").
Proof.
  intros Hp. split; [by apply get_dependencies_Permutation|].
  split.
  { intros l. rewrite get_dependencies_spec. destruct (decide _); [|done].
    intros [= <-]. apply sorted_Sorted. }
  split.
  { intros ds. rewrite !agent_prepare_create_spec.
    apply collectors_Permutation in Hp.
    destruct (String.eqb _ _); [|done].
    destruct (decide (Forall has_hostname (collectors m))) as [Hall|Hall].
    - rewrite decide_True by (by rewrite <- Hp). cbn.
      apply sorted_perm_eq. by rewrite Hp.
    - rewrite decide_False by (by rewrite <- Hp). done. }
  split.
  { intros ds ds'. rewrite agent_prepare_create_spec.
    destruct (String.eqb _ _); [|done].
    destruct (decide _); [|done].
    intros [= <-]. split; [apply sorted_Sorted|].
    unfold config_value. cbn. by rewrite lookup_singleton_eq. }
  by vm_compute.
Qed.

(** C2 (as amended).  Whenever the agent builder succeeds, [collector_nodes]
    is the comma-join of the collector endpoints in the iteration order of
    the cache, and the attached dependency list is the ascending sort of
    that same endpoint list, which is also what [get_dependencies] returns
    on the same snapshot; the comma-join of the dependency list equals
    [collector_nodes] whenever the endpoints already come in ascending
    order. *)
Theorem C2_deps_sort_of_collector_nodes (m : CephadmOrchestrator)
    (ds ds' : CephadmDaemonDeploySpec) :
  JaegerAgentService.prepare_create m ds = (ds', Ok ()) →
  final_config ds'
  = Some {[ "collector_nodes" := String.concat "," (collector_endpoint <$> collectors m) ]}
  ∧ deps ds' = sorted (collector_endpoint <$> collectors m)
  ∧ JaegerAgentService.get_dependencies m None None = Ok (deps ds')
  ∧ (Sorted String.le (collector_endpoint <$> collectors m) →
     config_value ds' "collector_nodes" = Some (String.concat "," (deps ds'))).
Proof.
  rewrite agent_prepare_create_spec, get_dependencies_spec.
  destruct (String.eqb _ _); [|done].
  destruct (decide _); [|done].
  intros [= <-]. cbn. repeat split.
  intros Hs. unfold config_value. cbn. rewrite lookup_singleton_eq.
  by rewrite sorted_id.
Qed.

(** C3.  With the tracing spec of the service in the spec store, the
    search-index resolution fails with [MissingConfiguration] exactly when
    the snapshot has no search-index daemon and the spec's [es_nodes] is
    absent; when at least one search-index daemon exists the result does
    not depend on the spec store (nor on the service name used to query
    it), and is neither [MissingConfiguration] nor a failed lookup. *)
Theorem C3_missing_configuration_iff (m : CephadmOrchestrator)
    (ds : CephadmDaemonDeploySpec) (spec : TracingSpec) :
  active_specs m !! service_name ds = Some spec →
  (get_elasticsearch_nodes m ds = Raise MissingConfiguration
   ↔ search_indexes m = [] ∧ es_nodes spec = None)
  ∧ (search_indexes m ≠ [] →
     (∀ specs' ds',
        get_elasticsearch_nodes (with_active_specs m specs') ds'
        = get_elasticsearch_nodes m ds)
     ∧ get_elasticsearch_nodes m ds ≠ Raise MissingConfiguration
     ∧ get_elasticsearch_nodes m ds ≠ Raise KeyError).
Proof.
  intros Hspec. split.
  - rewrite get_elasticsearch_nodes_spec. unfold es_fallback. rewrite Hspec.
    destruct (decide _) as [Hall|Hall];
      [|split; [done|intros [He _]; rewrite He in Hall; by destruct Hall]].
    destruct (search_indexes m) as [|dd dds].
    + destruct (es_nodes spec); split; try done. by intros [_ ?].
    + split; [done|]. by intros [? _].
  - intros Hne. split; [|split].
    + intros specs' ds'. rewrite !get_elasticsearch_nodes_spec.
      change (search_indexes (with_active_specs m specs')) with (search_indexes m).
      destruct (decide _); [|done].
      destruct (search_indexes m); done.
    + rewrite get_elasticsearch_nodes_spec. destruct (decide _); [|done].
      by destruct (search_indexes m).
    + rewrite get_elasticsearch_nodes_spec. destruct (decide _); [|done].
      by destruct (search_indexes m).
Qed.

Lemma fallback_spec m ds spec nodes :
  search_indexes m = [] →
  active_specs m !! service_name ds = Some spec →
  es_nodes spec = Some nodes →
  get_elasticsearch_nodes m ds = Ok ((λ url, "http://" +:+ url) <$> split "," nodes).
Proof.
  intros He Hs Hn. rewrite get_elasticsearch_nodes_spec, He.
  rewrite decide_True by constructor. unfold es_fallback. by rewrite Hs, Hn.
Qed.

(** C4.  With no search-index daemon and [es_nodes] set, the fallback returns
    the comma-split tokens, each prefixed with "http://", in the order they
    are written; "a:9200,b:9200" gives ["http://a:9200"; "http://b:9200"],
    and a list written in descending order stays in that order. *)
Theorem C4_fallback_literal_order (m : CephadmOrchestrator)
    (ds : CephadmDaemonDeploySpec) (spec : TracingSpec) (nodes : string) :
  search_indexes m = [] →
  active_specs m !! service_name ds = Some spec →
  es_nodes spec = Some nodes →
  get_elasticsearch_nodes m ds = Ok ((λ url, "http://" +:+ url) <$> split "," nodes)
  ∧ (nodes = "a:9200,b:9200" →
     get_elasticsearch_nodes m ds = Ok ["http://a:9200"; "http://b:9200"])
  ∧ (nodes = "b:9200,a:9200" →
     get_elasticsearch_nodes m ds = Ok ["http://b:9200"; "http://a:9200"]).
Proof.
  intros He Hs Hn. rewrite (fallback_spec m ds spec nodes He Hs Hn).
  split; [done|]. split; by intros ->.
Qed.

(** C10.  The fallback does not validate [es_nodes]: with no search-index
    daemon and [es_nodes] present, resolution succeeds with one
    "http://"-prefixed entry per comma-split token; for the empty string the
    result is ["http://"], and the collector and query builders emit
    [elasticsearch_nodes] = "http://". *)
Theorem C10_fallback_no_validation (m : CephadmOrchestrator)
    (ds : CephadmDaemonDeploySpec) (spec : TracingSpec) (nodes : string) :
  search_indexes m = [] →
  active_specs m !! service_name ds = Some spec →
  es_nodes spec = Some nodes →
  (∃ l, get_elasticsearch_nodes m ds = Ok l
        ∧ Forall2 (λ tok entry, entry = "http://" +:+ tok) (split "," nodes) l)
  ∧ (nodes = "" →
     get_elasticsearch_nodes m ds = Ok ["http://"]
     ∧ (spec_daemon_type ds = "jaeger-collector" →
        (JaegerCollectorService.prepare_create m ds).2 = Ok ()
        ∧ config_value (JaegerCollectorService.prepare_create m ds).1
            "elasticsearch_nodes" = Some "http://")
     ∧ (spec_daemon_type ds = "jaeger-query" →
        (JaegerQueryService.prepare_create m ds).2 = Ok ()
        ∧ config_value (JaegerQueryService.prepare_create m ds).1
            "elasticsearch_nodes" = Some "http://")).
Proof.
  intros He Hs Hn. pose proof (fallback_spec m ds spec nodes He Hs Hn) as Hf.
  split.
  - eexists. split; [exact Hf|]. apply Forall2_fmap_r, Forall_Forall2_diag.
    by apply Forall_forall.
  - intros ->. split; [exact Hf|].
    rewrite collector_prepare_create_spec, query_prepare_create_spec.
    unfold es_builder_outcome. rewrite Hf.
    split; intros ->; by vm_compute.
Qed.








(** C6.  When live discovery succeeds, every search-index record contributes
    the endpoint built from its explicit [ip] when it has one, and from the
    inventory address of its hostname when [ip] is absent ([None], or the
    empty string, which the test [if dd.ip] does not tell apart from
    [None]); if every record carries an ip the result is the same for every
    inventory.  A record with ip 10.0.0.2 and port 9200 gives
    [elasticsearch_nodes] = "http://10.0.0.2:9200" whatever the inventory
    answers. *)
Theorem C6_explicit_ip_preferred (m : CephadmOrchestrator)
    (ds : CephadmDaemonDeploySpec) (l : list string) :
  search_indexes m ≠ [] →
  get_elasticsearch_nodes m ds = Ok l →
  Forall2
    (λ dd url, ∃ h, hostname dd = Some h ∧
       let port := match ports dd with p :: _ => p | [] => 9200 end in
       (∀ a, ip dd = Some a → a ≠ "" →
             url = "http://" +:+ lstrip "/" (build_url a port))
       ∧ (ip dd = None ∨ ip dd = Some "" →
          url = "http://" +:+ lstrip "/" (build_url (get_addr m h) port)))
    (search_indexes m) l
  ∧ ((∀ dd, dd ∈ search_indexes m → ∃ a, ip dd = Some a ∧ a ≠ "") →
     ∀ inv, get_elasticsearch_nodes (with_get_addr m inv) ds = Ok l)
  ∧ (∀ inv host,
       let es := {| daemon_type := "elasticsearch"; hostname := Some host;
                    ip := Some "10.0.0.2"; ports := [9200] |} in
       let m0 := {| cache := [es]; get_addr := inv; active_specs := ∅ |} in
       let out := JaegerCollectorService.prepare_create (U := mgr_util_spec) m0
                    (fresh_spec "jaeger-collector" "jaeger") in
       out.2 = Ok ()
       ∧ config_value out.1 "elasticsearch_nodes" = Some "http://10.0.0.2:9200").
Proof.
  intros Hne. rewrite get_elasticsearch_nodes_spec.
  destruct (decide _) as [Hall|]; [|done].
  destruct (search_indexes m) as [|d0 dds0] eqn:Hes; [done|].
  rewrite <- Hes in *. clear Hes d0 dds0.
  intros [= <-]. split; [|split].
  - apply Forall2_fmap_r, Forall_Forall2_diag.
    apply (Forall_impl _ _ _ Hall). intros dd [h Hh]. exists h. split; [done|].
    unfold es_endpoint. rewrite Hh. cbn. split.
    + intros a -> Ha. by destruct a.
    + by intros [-> | ->].
  - intros Hip inv. rewrite get_elasticsearch_nodes_spec.
    change (search_indexes (with_get_addr m inv)) with (search_indexes m).
    rewrite decide_True by done.
    assert (es_endpoint (with_get_addr m inv) <$> search_indexes m
            = es_endpoint m <$> search_indexes m) as ->.
    { apply list_fmap_ext. intros i dd Hdd.
      destruct (Hip dd) as (a & Ha & Hn); [by eapply list_elem_of_lookup_2|].
      unfold es_endpoint. rewrite Ha. by destruct a. }
    by destruct (search_indexes m).
  - intros inv host. by vm_compute.
Qed.

Lemma not_all_hostnames (l : list DaemonDescription) :
  ¬ Forall has_hostname l ↔ ∃ dd, dd ∈ l ∧ hostname dd = None.
Proof.
  split.
  - intros Hn. apply not_Forall_Exists in Hn; [|apply _].
    apply Exists_exists in Hn as (dd & Hin & Hdd). exists dd. split; [done|].
    unfold has_hostname in Hdd. cbn in Hdd. by apply eq_None_not_Some.
  - intros (dd & Hin & Hdd) Hall. rewrite Forall_forall in Hall.
    specialize (Hall dd Hin). unfold has_hostname in Hall. rewrite Hdd in Hall.
    by destruct Hall.
Qed.

(** C7 (as amended).  Endpoint resolution fails with [InvariantViolation]
    exactly when some record of the queried type has no hostname ([None]);
    when every such record has a hostname, be it the empty string,
    resolution proceeds and [get_dependencies] returns a list. *)
Theorem C7_hostname_absent_iff (m : CephadmOrchestrator) (ds : CephadmDaemonDeploySpec) :
  (∀ spec dt,
     JaegerAgentService.get_dependencies m spec dt = Raise InvariantViolation
     ↔ ∃ dd, dd ∈ collectors m ∧ hostname dd = None)
  ∧ ((JaegerAgentService.prepare_create m ds).2 = Raise InvariantViolation
     ↔ spec_daemon_type ds = "jaeger-agent"
       ∧ ∃ dd, dd ∈ collectors m ∧ hostname dd = None)
  ∧ (get_elasticsearch_nodes m ds = Raise InvariantViolation
     ↔ ∃ dd, dd ∈ search_indexes m ∧ hostname dd = None)
  ∧ (∀ spec dt,
       (∃ l, JaegerAgentService.get_dependencies m spec dt = Ok l)
       ↔ ∀ dd, dd ∈ collectors m → ∃ h, hostname dd = Some h).
Proof.
  split; [|split; [|split]].
  - intros spec dt. rewrite get_dependencies_spec, <- not_all_hostnames.
    by destruct (decide _).
  - rewrite agent_prepare_create_spec, <- not_all_hostnames.
    destruct (String.eqb_spec JaegerAgentService.TYPE (spec_daemon_type ds)) as [Ht|Ht].
    + destruct (decide _); cbn; split; try done; by intros [_ ?].
    + cbn. split; [done|]. intros [Heq _]. by destruct Ht.
  - rewrite get_elasticsearch_nodes_spec, <- not_all_hostnames.
    destruct (decide _) as [Hall|Hall]; [|done].
    split; [|done]. destruct (search_indexes m); [|done].
    unfold es_fallback. destruct (active_specs m !! service_name ds) as [s|]; [|done].
    by destruct (es_nodes s).
  - intros spec dt. rewrite get_dependencies_spec.
    destruct (decide _) as [Hall|Hall].
    + split; [|eauto]. intros _ dd Hin. rewrite Forall_forall in Hall.
      by apply (Hall dd).
    + split; [by intros [? ?]|]. intros Hc. destruct Hall.
      apply Forall_forall. intros dd Hin. destruct (Hc dd Hin) as [h Hh].
      unfold has_hostname. rewrite Hh. eauto.
Qed.

(** C8.  Whenever a builder (agent, collector or query) raises, whatever the
    error, it leaves the [daemon_spec] object as it received it: in
    particular a configuration that was unset is still unset. *)
Theorem C8_no_partial_configuration (k : daemon_kind) (m : CephadmOrchestrator)
    (ds ds' : CephadmDaemonDeploySpec) (e : error) :
  prepare_config k m ds = (ds', Raise e) →
  ds' = ds ∧ (final_config ds = None → final_config ds' = None).
Proof.
  intros Hr. assert (ds' = ds) as ->; [|done].
  destruct k; cbn [prepare_config] in Hr.
  - rewrite agent_prepare_create_spec in Hr.
    destruct (String.eqb _ _); [|congruence].
    destruct (decide _); congruence.
  - rewrite collector_prepare_create_spec in Hr. unfold es_builder_outcome in Hr.
    destruct (String.eqb _ _); [|congruence].
    destruct (get_elasticsearch_nodes m ds); congruence.
  - rewrite query_prepare_create_spec in Hr. unfold es_builder_outcome in Hr.
    destruct (String.eqb _ _); [|congruence].
    destruct (get_elasticsearch_nodes m ds); congruence.
Qed.

(** C9.  [get_dependencies] ignores its [spec] and [daemon_type] arguments,
    and two orchestrators whose caches hold the same collector records give
    the same dependency list, whatever else they contain. *)
Theorem C9_get_dependencies_arguments_ignored (m m' : CephadmOrchestrator)
    (spec spec' : option TracingSpec) (dt dt' : option string) :
  get_daemons_by_type m JaegerCollectorService.TYPE
  = get_daemons_by_type m' JaegerCollectorService.TYPE →
  JaegerAgentService.get_dependencies m spec dt
  = JaegerAgentService.get_dependencies m spec' dt'
  ∧ JaegerAgentService.get_dependencies m spec dt
    = JaegerAgentService.get_dependencies m' spec' dt'.
Proof.
  intros Hc. split; [done|].
  unfold JaegerAgentService.get_dependencies. by rewrite Hc.
Qed.

End properties.

(** ** The statements at concrete snapshots *)

Lemma C1_dependency_list_sorted_witness :
  JaegerAgentService.get_dependencies
    (mk_mgr [collector "b" [14250]; collector "a" [14250]] ∅) None None
  = JaegerAgentService.get_dependencies
      (mk_mgr [collector "a" [14250]; collector "b" [14250]] ∅) None None.
Proof.
  apply (C1_dependency_list_sorted
           (mk_mgr [collector "b" [14250]; collector "a" [14250]] ∅)
           (mk_mgr [collector "a" [14250]; collector "b" [14250]] ∅) None None).
  simpl. apply perm_swap.
Defined.

(** C1 (as stated) fails: with the collectors registered in the order b, a
    the agent builder emits [collector_nodes] in that order, not sorted. *)
Lemma C1_collector_nodes_unsorted :
  let ba := mk_mgr [collector "b" [14250]; collector "a" [14250]] ∅ in
  let ds' := (JaegerAgentService.prepare_create ba (fresh_spec "jaeger-agent" "jaeger")).1 in
  config_value ds' "collector_nodes" = Some "b:14250,a:14250"
  ∧ config_value ds' "collector_nodes" ≠ Some "a:14250,b:14250".
Proof. split; [by vm_compute|]. vm_compute. discriminate. Qed.

(** The live search-index path keeps the iteration order of the cache too:
    no configuration value of this module is sorted, only the dependency
    list is. *)
Example es_live_discovery_keeps_cache_order :
  let es h := {| daemon_type := "elasticsearch"; hostname := Some h;
                 ip := Some h; ports := [] |} in
  get_elasticsearch_nodes (mk_mgr [es "b"; es "a"] ∅)
    (fresh_spec "jaeger-collector" "jaeger")
  = Ok ["http://b:9200"; "http://a:9200"].
Proof. by vm_compute. Qed.

Lemma C2_deps_sort_of_collector_nodes_witness :
  let ba := mk_mgr [collector "b" [14250]; collector "a" [14250]] ∅ in
  let ds := fresh_spec "jaeger-agent" "jaeger" in
  JaegerAgentService.get_dependencies ba None None
  = Ok (deps (JaegerAgentService.prepare_create ba ds).1).
Proof.
  intros ba ds.
  destruct (C2_deps_sort_of_collector_nodes ba ds
              (JaegerAgentService.prepare_create ba ds).1) as (_ & _ & Hd & _).
  - vm_compute. reflexivity.
  - exact Hd.
Defined.

(** C2 (as stated) fails: with the collectors registered in the order b, a
    the comma-join of the dependency list is not the [collector_nodes]
    value. *)
Lemma C2_join_of_deps_differs :
  let ba := mk_mgr [collector "b" [14250]; collector "a" [14250]] ∅ in
  let ds' := (JaegerAgentService.prepare_create ba (fresh_spec "jaeger-agent" "jaeger")).1 in
  JaegerAgentService.get_dependencies ba None None = Ok ["a:14250"; "b:14250"]
  ∧ deps ds' = ["a:14250"; "b:14250"]
  ∧ config_value ds' "collector_nodes" = Some "b:14250,a:14250"
  ∧ config_value ds' "collector_nodes" ≠ Some (String.concat "," (deps ds')).
Proof.
  split; [by vm_compute|]. split; [by vm_compute|]. split; [by vm_compute|].
  vm_compute. discriminate.
Qed.

Lemma C3_missing_configuration_iff_witness :
  let m := mk_mgr [] {[ "jaeger" := {| es_nodes := None |} ]} in
  let ds := fresh_spec "jaeger-collector" "jaeger" in
  get_elasticsearch_nodes m ds = Raise MissingConfiguration
  ↔ search_indexes m = [] ∧ es_nodes {| es_nodes := None |} = None.
Proof.
  intros m ds.
  apply (C3_missing_configuration_iff m ds {| es_nodes := None |}).
  vm_compute. reflexivity.
Defined.

Lemma C4_fallback_literal_order_witness :
  get_elasticsearch_nodes
    (mk_mgr [] {[ "jaeger" := {| es_nodes := Some "a:9200,b:9200" |} ]})
    (fresh_spec "jaeger-collector" "jaeger")
  = Ok ["http://a:9200"; "http://b:9200"].
Proof.
  apply (C4_fallback_literal_order
           (mk_mgr [] {[ "jaeger" := {| es_nodes := Some "a:9200,b:9200" |} ]})
           (fresh_spec "jaeger-collector" "jaeger")
           {| es_nodes := Some "a:9200,b:9200" |} "a:9200,b:9200");
    vm_compute; reflexivity.
Defined.


Lemma C6_explicit_ip_preferred_witness :
  let es := {| daemon_type := "elasticsearch"; hostname := Some "es1";
               ip := Some "10.0.0.2"; ports := [9200] |} in
  let m := mk_mgr [es] ∅ in
  get_elasticsearch_nodes (with_get_addr m (λ _, "192.168.0.9"))
    (fresh_spec "jaeger-collector" "jaeger")
  = Ok ["http://10.0.0.2:9200"].
Proof.
  intros es m.
  destruct (C6_explicit_ip_preferred m (fresh_spec "jaeger-collector" "jaeger")
              ["http://10.0.0.2:9200"]) as (_ & Hinv & _).
  - vm_compute. discriminate.
  - vm_compute. reflexivity.
  - apply Hinv. intros dd Hin.
    change (search_indexes m) with [es] in Hin.
    apply list_elem_of_singleton in Hin as ->. exists "10.0.0.2". by split.
Defined.

(** C7 (as stated) fails: a collector record whose hostname is the empty
    string passes [assert dd.hostname is not None]; resolution succeeds. *)
Lemma C7_empty_hostname_accepted :
  let dd := {| daemon_type := "jaeger-collector"; hostname := Some "";
               ip := None; ports := [] |} in
  let m := mk_mgr [dd] ∅ in
  JaegerAgentService.get_dependencies m None None = Ok [":14250"]
  ∧ JaegerAgentService.get_dependencies m None None ≠ Raise InvariantViolation.
Proof. split; [by vm_compute|]. vm_compute. discriminate. Qed.

Lemma C8_no_partial_configuration_witness :
  let m := mk_mgr [] {[ "jaeger" := {| es_nodes := None |} ]} in
  let ds := fresh_spec "jaeger-collector" "jaeger" in
  (prepare_config Collector m ds).2 = Raise MissingConfiguration
  ∧ (prepare_config Collector m ds).1 = ds
  ∧ final_config (prepare_config Collector m ds).1 = None.
Proof.
  intros m ds. split; [by vm_compute|].
  destruct (C8_no_partial_configuration Collector m ds
              (prepare_config Collector m ds).1 MissingConfiguration) as [Heq Hnone].
  - vm_compute. reflexivity.
  - split; [exact Heq|]. apply Hnone. reflexivity.
Defined.

Lemma C9_get_dependencies_arguments_ignored_witness :
  let es := {| daemon_type := "elasticsearch"; hostname := Some "es1";
               ip := None; ports := [] |} in
  let m := mk_mgr [collector "b" []; es] ∅ in
  let m' := {| cache := [collector "b" []]; get_addr := λ h, h;
               active_specs := {[ "jaeger" := {| es_nodes := Some "x:1" |} ]} |} in
  JaegerAgentService.get_dependencies m None None
  = JaegerAgentService.get_dependencies m'
      (Some {| es_nodes := Some "x:1" |}) (Some "jaeger-agent").
Proof.
  intros es m m'.
  apply (C9_get_dependencies_arguments_ignored m m' None _ None _).
  vm_compute. reflexivity.
Defined.

Lemma C10_fallback_no_validation_witness :
  let m := mk_mgr [] {[ "jaeger" := {| es_nodes := Some "" |} ]} in
  let ds := fresh_spec "jaeger-query" "jaeger" in
  get_elasticsearch_nodes m ds = Ok ["http://"]
  ∧ config_value (JaegerQueryService.prepare_create m ds).1 "elasticsearch_nodes"
    = Some "http://".
Proof.
  intros m ds.
  destruct (C10_fallback_no_validation m ds {| es_nodes := Some "" |} "")
    as (_ & Hempty); [vm_compute; reflexivity..|].
  destruct (Hempty eq_refl) as (Hres & _ & Hquery).
  split; [exact Hres|]. apply Hquery. reflexivity.
Defined.

(** * Further properties of the module *)

(** ** String primitives *)

Lemma lstrip_slash_no_leading_slash (s : string) :
  startswith "/" (lstrip "/" s) = false.
Proof.
  induction s as [|c s IH]; [done|].
  cbn [lstrip char_in]. rewrite orb_false_r.
  destruct (Ascii.eqb c "/") eqn:Hc; [done|].
  cbn [startswith]. by rewrite Ascii.eqb_sym, Hc.
Qed.



Lemma split_not_nil (sep : ascii) (s : string) : split sep s ≠ [].
Proof.
  induction s as [|c s IH]; [done|]. cbn.
  destruct (Ascii.eqb c sep); [done|]. by destruct (split sep s).
Qed.

Lemma split_concat (sep : ascii) (s : string) :
  String.concat (String sep "") (split sep s) = s.
Proof.
  induction s as [|c s IH]; [done|]. cbn [split].
  destruct (Ascii.eqb_spec c sep) as [->|Hne].
  - pose proof (split_not_nil sep s) as Hnil.
    destruct (split sep s) as [|t ts]; [done|].
    cbn in *. by rewrite IH.
  - pose proof (split_not_nil sep s) as Hnil.
    destruct (split sep s) as [|t ts]; [done|].
    rewrite <- IH. destruct ts; done.
Qed.

Lemma split_tokens_sep_free (sep : ascii) (s : string) :
  Forall (λ tok, char_in sep tok = false) (split sep s).
Proof.
  induction s as [|c s IH]; [by repeat constructor|]. cbn [split].
  destruct (Ascii.eqb_spec c sep) as [->|Hne].
  - by constructor.
  - destruct (split sep s) as [|t ts].
    + repeat constructor. cbn [char_in]. rewrite orb_false_r.
      rewrite Ascii.eqb_sym. by apply Ascii.eqb_neq.
    + inversion IH as [|?? Ht Hts]; subst. constructor; [|done].
      cbn [char_in]. rewrite Ht, orb_false_r. rewrite Ascii.eqb_sym.
      by apply Ascii.eqb_neq.
Qed.

Section further_properties.
Context `{U : MgrUtil}.

Lemma es_fallback_service_name m ds1 ds2 :
  service_name ds1 = service_name ds2 → es_fallback m ds1 = es_fallback m ds2.
Proof. intros Hn. unfold es_fallback. by rewrite Hn. Qed.

Lemma get_elasticsearch_nodes_service_name m ds1 ds2 :
  service_name ds1 = service_name ds2 →
  get_elasticsearch_nodes m ds1 = get_elasticsearch_nodes m ds2.
Proof.
  intros Hn. rewrite !get_elasticsearch_nodes_spec.
  by rewrite (es_fallback_service_name m ds1 ds2 Hn).
Qed.

Lemma get_elasticsearch_nodes_not_type_mismatch m ds :
  get_elasticsearch_nodes m ds ≠ Raise TypeMismatch.
Proof.
  rewrite get_elasticsearch_nodes_spec. destruct (decide _); [|done].
  destruct (search_indexes m); [|done]. unfold es_fallback.
  destruct (active_specs m !! service_name ds) as [s|]; [|done].
  by destruct (es_nodes s).
Qed.

(** X1.  Each of the four [prepare_create] methods raises [TypeMismatch]
    exactly when the daemon type of the [daemon_spec] it receives differs
    from the [TYPE] of its service, whatever the snapshot holds. *)
Theorem X1_type_mismatch_iff (s : service) (m : CephadmOrchestrator)
    (ds : CephadmDaemonDeploySpec) :
  (service_prepare_create s m ds).2 = Raise TypeMismatch
  ↔ spec_daemon_type ds ≠ service_TYPE s.
Proof.
  destruct s; cbn [service_prepare_create service_TYPE].
  - unfold ElasticSearchService.prepare_create.
    cbv [mbind M_bind gets assert_].
    destruct (String.eqb_spec ElasticSearchService.TYPE (spec_daemon_type ds)); cbn;
      split; try done; congruence.
  - rewrite agent_prepare_create_spec.
    destruct (String.eqb_spec JaegerAgentService.TYPE (spec_daemon_type ds)).
    + destruct (decide _); cbn; split; try done; congruence.
    + cbn. split; [congruence|done].
  - rewrite collector_prepare_create_spec. unfold es_builder_outcome.
    pose proof (get_elasticsearch_nodes_not_type_mismatch m ds) as Hn.
    destruct (String.eqb_spec JaegerCollectorService.TYPE (spec_daemon_type ds)).
    + destruct (get_elasticsearch_nodes m ds); cbn; split; try done; congruence.
    + cbn. split; [congruence|done].
  - rewrite query_prepare_create_spec. unfold es_builder_outcome.
    pose proof (get_elasticsearch_nodes_not_type_mismatch m ds) as Hn.
    destruct (String.eqb_spec JaegerQueryService.TYPE (spec_daemon_type ds)).
    + destruct (get_elasticsearch_nodes m ds); cbn; split; try done; congruence.
    + cbn. split; [congruence|done].
Qed.

(** X2.  No [prepare_create] changes the daemon type or the service name of
    the [daemon_spec]; the search-index service returns the object untouched,
    and only the agent builder assigns [deps]. *)
Theorem X2_prepare_create_keeps_identity (s : service) (m : CephadmOrchestrator)
    (ds : CephadmDaemonDeploySpec) :
  spec_daemon_type (service_prepare_create s m ds).1 = spec_daemon_type ds
  ∧ service_name (service_prepare_create s m ds).1 = service_name ds
  ∧ (s = SvcElasticSearch → (service_prepare_create s m ds).1 = ds)
  ∧ (s ≠ SvcJaegerAgent → deps (service_prepare_create s m ds).1 = deps ds).
Proof.
  destruct s; cbn [service_prepare_create].
  - unfold ElasticSearchService.prepare_create.
    cbv [mbind M_bind gets assert_]. done.
  - rewrite agent_prepare_create_spec.
    destruct (String.eqb _ _); [|done]. by destruct (decide _).
  - rewrite collector_prepare_create_spec. unfold es_builder_outcome.
    destruct (String.eqb _ _); [|done].
    by destruct (get_elasticsearch_nodes m ds).
  - rewrite query_prepare_create_spec. unfold es_builder_outcome.
    destruct (String.eqb _ _); [|done].
    by destruct (get_elasticsearch_nodes m ds).
Qed.

(** X3.  A builder overwrites, it never merges: two [daemon_spec] objects
    with the same daemon type and service name get the same outcome and,
    on success, the same configuration (and the same [deps] from the agent
    builder), whatever configuration and dependency list they carried
    before. *)
Theorem X3_previous_outputs_overwritten (s : service) (m : CephadmOrchestrator)
    (ds1 ds2 : CephadmDaemonDeploySpec) :
  spec_daemon_type ds1 = spec_daemon_type ds2 →
  service_name ds1 = service_name ds2 →
  s ≠ SvcElasticSearch →
  (service_prepare_create s m ds1).2 = (service_prepare_create s m ds2).2
  ∧ ((service_prepare_create s m ds1).2 = Ok () →
     final_config (service_prepare_create s m ds1).1
     = final_config (service_prepare_create s m ds2).1
     ∧ (s = SvcJaegerAgent →
        deps (service_prepare_create s m ds1).1
        = deps (service_prepare_create s m ds2).1)).
Proof.
  intros Ht Hn Hs. destruct s; [done|..]; cbn [service_prepare_create].
  - rewrite !agent_prepare_create_spec, Ht.
    destruct (String.eqb _ _); [|done]. by destruct (decide _).
  - rewrite !collector_prepare_create_spec. unfold es_builder_outcome.
    rewrite Ht, (get_elasticsearch_nodes_service_name m ds1 ds2 Hn).
    destruct (String.eqb _ _); [|done].
    by destruct (get_elasticsearch_nodes m ds2).
  - rewrite !query_prepare_create_spec. unfold es_builder_outcome.
    rewrite Ht, (get_elasticsearch_nodes_service_name m ds1 ds2 Hn).
    destruct (String.eqb _ _); [|done].
    by destruct (get_elasticsearch_nodes m ds2).
Qed.

(** X4.  Preparing the same [daemon_spec] twice on an unchanged snapshot
    gives exactly what preparing it once gives. *)
Theorem X4_prepare_create_idempotent (s : service) (m : CephadmOrchestrator)
    (ds : CephadmDaemonDeploySpec) :
  service_prepare_create s m (service_prepare_create s m ds).1
  = service_prepare_create s m ds.
Proof.
  destruct s; cbn [service_prepare_create].
  - unfold ElasticSearchService.prepare_create.
    cbv [mbind M_bind gets assert_]. done.
  - rewrite (agent_prepare_create_spec m ds).
    destruct (String.eqb JaegerAgentService.TYPE (spec_daemon_type ds)) eqn:Ht.
    + destruct (decide (Forall has_hostname (collectors m))) as [Hall|Hall];
        cbn [fst]; rewrite agent_prepare_create_spec;
        cbn [spec_daemon_type service_name]; rewrite Ht.
      * by rewrite decide_True.
      * by rewrite decide_False.
    + cbn [fst]. rewrite agent_prepare_create_spec. by rewrite Ht.
  - rewrite (collector_prepare_create_spec m ds). unfold es_builder_outcome.
    destruct (String.eqb JaegerCollectorService.TYPE (spec_daemon_type ds)) eqn:Ht.
    + destruct (get_elasticsearch_nodes m ds) as [l|e] eqn:Hg;
        cbn [fst]; rewrite collector_prepare_create_spec;
        unfold es_builder_outcome;
        cbn [spec_daemon_type service_name]; rewrite Ht.
      * rewrite (get_elasticsearch_nodes_service_name m _ ds); [|done].
        by rewrite Hg.
      * by rewrite Hg.
    + cbn [fst]. rewrite collector_prepare_create_spec.
      unfold es_builder_outcome. by rewrite Ht.
  - rewrite (query_prepare_create_spec m ds). unfold es_builder_outcome.
    destruct (String.eqb JaegerQueryService.TYPE (spec_daemon_type ds)) eqn:Ht.
    + destruct (get_elasticsearch_nodes m ds) as [l|e] eqn:Hg;
        cbn [fst]; rewrite query_prepare_create_spec;
        unfold es_builder_outcome;
        cbn [spec_daemon_type service_name]; rewrite Ht.
      * rewrite (get_elasticsearch_nodes_service_name m _ ds); [|done].
        by rewrite Hg.
      * by rewrite Hg.
    + cbn [fst]. rewrite query_prepare_create_spec.
      unfold es_builder_outcome. by rewrite Ht.
Qed.

(** X5.  The collector builder and the query builder run the same logic:
    given [daemon_spec] objects of their respective types for the same
    service name, they succeed or fail alike and, on success, emit the same
    configuration. *)
Theorem X5_collector_query_agree (m : CephadmOrchestrator)
    (dsc dsq : CephadmDaemonDeploySpec) :
  spec_daemon_type dsc = "jaeger-collector" →
  spec_daemon_type dsq = "jaeger-query" →
  service_name dsc = service_name dsq →
  (JaegerCollectorService.prepare_create m dsc).2
  = (JaegerQueryService.prepare_create m dsq).2
  ∧ ((JaegerCollectorService.prepare_create m dsc).2 = Ok () →
     final_config (JaegerCollectorService.prepare_create m dsc).1
     = final_config (JaegerQueryService.prepare_create m dsq).1).
Proof.
  intros Hc Hq Hn.
  rewrite collector_prepare_create_spec, query_prepare_create_spec.
  unfold es_builder_outcome.
  rewrite Hc, Hq, (get_elasticsearch_nodes_service_name m dsc dsq Hn). cbn.
  by destruct (get_elasticsearch_nodes m dsq).
Qed.

(** X6.  The agent builder succeeds exactly when the daemon type is its own
    and every collector record has a hostname; it never fails for a missing
    spec or a missing [es_nodes], and neither the inventory nor the spec
    store has any influence on what it does. *)
Theorem X6_agent_outcome (m : CephadmOrchestrator) (ds : CephadmDaemonDeploySpec) :
  ((JaegerAgentService.prepare_create m ds).2 = Ok ()
   ↔ spec_daemon_type ds = "jaeger-agent"
     ∧ ∀ dd, dd ∈ collectors m → ∃ h, hostname dd = Some h)
  ∧ (JaegerAgentService.prepare_create m ds).2 ≠ Raise MissingConfiguration
  ∧ (JaegerAgentService.prepare_create m ds).2 ≠ Raise KeyError
  ∧ (∀ inv specs,
       JaegerAgentService.prepare_create
         (with_get_addr (with_active_specs m specs) inv) ds
       = JaegerAgentService.prepare_create m ds).
Proof.
  assert (Forall has_hostname (collectors m)
          ↔ ∀ dd, dd ∈ collectors m → ∃ h, hostname dd = Some h) as Hall.
  { rewrite Forall_forall. done. }
  split; [|split; [|split]].
  - rewrite agent_prepare_create_spec, <- Hall.
    destruct (String.eqb_spec JaegerAgentService.TYPE (spec_daemon_type ds)) as [Ht|Ht].
    + destruct (decide _); cbn; split; try done. by intros [_ ?].
    + cbn. split; [done|]. intros [Heq _]. by destruct Ht.
  - rewrite agent_prepare_create_spec. destruct (String.eqb _ _); [|done].
    by destruct (decide _).
  - rewrite agent_prepare_create_spec. destruct (String.eqb _ _); [|done].
    by destruct (decide _).
  - intros inv specs. by rewrite !agent_prepare_create_spec.
Qed.

(** X7.  With no collector daemon in the cache the agent has no fallback and
    no error: [get_dependencies] returns the empty list, and the builder
    succeeds with [collector_nodes] set to the empty string and an empty
    dependency list. *)
Theorem X7_agent_without_collectors (m : CephadmOrchestrator)
    (ds : CephadmDaemonDeploySpec) (spec : option TracingSpec) (dt : option string) :
  get_daemons_by_type m "jaeger-collector" = [] →
  spec_daemon_type ds = "jaeger-agent" →
  JaegerAgentService.get_dependencies m spec dt = Ok []
  ∧ (JaegerAgentService.prepare_create m ds).2 = Ok ()
  ∧ final_config (JaegerAgentService.prepare_create m ds).1
    = Some {[ "collector_nodes" := "" ]}
  ∧ deps (JaegerAgentService.prepare_create m ds).1 = [].
Proof.
  intros Hc Ht. rewrite get_dependencies_spec, agent_prepare_create_spec.
  unfold collectors. change JaegerCollectorService.TYPE with "jaeger-collector".
  rewrite Hc, Ht. rewrite decide_True by constructor. done.
Qed.

(** X8.  The search-index resolution fails on the spec-store subscript
    exactly when the cache holds no search-index daemon and the service name
    of the [daemon_spec] is not a key of the active specs. *)
Theorem X8_unknown_service_name_iff (m : CephadmOrchestrator)
    (ds : CephadmDaemonDeploySpec) :
  get_elasticsearch_nodes m ds = Raise KeyError
  ↔ search_indexes m = [] ∧ active_specs m !! service_name ds = None.
Proof.
  rewrite get_elasticsearch_nodes_spec.
  destruct (decide _) as [Hall|Hall].
  - destruct (search_indexes m) as [|dd dds]; [|by split; [|intros [? _]]].
    unfold es_fallback. destruct (active_specs m !! service_name ds) as [s|].
    + destruct (es_nodes s); split; try done; by intros [_ ?].
    + done.
  - split; [done|]. intros [He _]. rewrite He in Hall. by destruct Hall.
Qed.

(** X9.  The search-index resolution succeeds exactly when every
    search-index record has a hostname and either there is at least one such
    record or the spec stored for the service has [es_nodes] set. *)
Theorem X9_elasticsearch_success_iff (m : CephadmOrchestrator)
    (ds : CephadmDaemonDeploySpec) :
  (∃ l, get_elasticsearch_nodes m ds = Ok l)
  ↔ (∀ dd, dd ∈ search_indexes m → ∃ h, hostname dd = Some h)
    ∧ (search_indexes m ≠ []
       ∨ ∃ spec nodes, active_specs m !! service_name ds = Some spec
                       ∧ es_nodes spec = Some nodes).
Proof.
  assert (Forall has_hostname (search_indexes m)
          ↔ ∀ dd, dd ∈ search_indexes m → ∃ h, hostname dd = Some h) as Hall.
  { rewrite Forall_forall. done. }
  rewrite get_elasticsearch_nodes_spec, <- Hall.
  destruct (decide _) as [Hd|Hd]; [|by split; [intros [? ?]|intros [? _]]].
  revert Hd. destruct (search_indexes m) as [|dd dds]; intros Hd.
  - unfold es_fallback.
    destruct (active_specs m !! service_name ds) as [s|] eqn:Hs.
    + destruct (es_nodes s) as [n|] eqn:Hn.
      * split; [|eauto]. intros _. split; [done|]. right. eauto.
      * split; [by intros [? ?]|].
        intros [_ [?|(s' & n & Hs' & Hn')]]; [done|]. congruence.
    + split; [by intros [? ?]|].
      intros [_ [?|(s' & n & Hs' & Hn')]]; [done|]. congruence.
  - split; [|eauto]. intros _. split; [done|]. by left.
Qed.


(** X11.  The fallback loses nothing of [es_nodes]: with no search-index
    daemon, the entries of a successful resolution are "http://" followed by
    comma-free tokens whose comma-join is the [es_nodes] string of the
    stored spec. *)
Theorem X11_fallback_round_trip (m : CephadmOrchestrator)
    (ds : CephadmDaemonDeploySpec) (l : list string) :
  search_indexes m = [] →
  get_elasticsearch_nodes m ds = Ok l →
  ∃ spec nodes toks,
    active_specs m !! service_name ds = Some spec
    ∧ es_nodes spec = Some nodes
    ∧ l = (λ tok, "http://" +:+ tok) <$> toks
    ∧ String.concat "," toks = nodes
    ∧ Forall (λ tok, char_in "," tok = false) toks.
Proof.
  intros He. rewrite get_elasticsearch_nodes_spec, He.
  rewrite decide_True by constructor. unfold es_fallback.
  destruct (active_specs m !! service_name ds) as [s|]; [|done].
  destruct (es_nodes s) as [n|] eqn:Hn; [|done].
  intros [= <-]. exists s, n, (split "," n).
  split; [done|]. split; [done|]. split; [done|].
  split; [apply split_concat|apply split_tokens_sep_free].
Qed.

(** X12.  No endpoint keeps a leading path separator: no entry of the
    agent's dependency list starts with "/", and every entry of a live
    search-index resolution is "http://" followed by a string that does not
    start with "/". *)
Theorem X12_no_leading_separator (m : CephadmOrchestrator)
    (ds : CephadmDaemonDeploySpec) :
  (∀ spec dt l, JaegerAgentService.get_dependencies m spec dt = Ok l →
     Forall (λ entry, startswith "/" entry = false) l)
  ∧ (∀ l, search_indexes m ≠ [] → get_elasticsearch_nodes m ds = Ok l →
     Forall (λ entry, ∃ rest, entry = "http://" +:+ rest
                              ∧ startswith "/" rest = false) l).
Proof.
  split.
  - intros spec dt l. rewrite get_dependencies_spec.
    destruct (decide _); [|done]. intros [= <-].
    rewrite sorted_Permutation. apply Forall_fmap, Forall_forall.
    intros dd _. apply lstrip_slash_no_leading_slash.
  - intros l Hne. rewrite get_elasticsearch_nodes_spec.
    destruct (decide _); [|done].
    destruct (search_indexes m) as [|dd dds] eqn:Hes; [done|].
    intros Heq. assert (l = es_endpoint m <$> dd :: dds) as -> by congruence.
    rewrite Forall_fmap, Forall_forall. intros d _.
    change (∃ rest, es_endpoint m d = "http://" +:+ rest
                    ∧ startswith "/" rest = false).
    unfold es_endpoint. eexists. split; [reflexivity|].
    apply lstrip_slash_no_leading_slash.
Qed.

(** X13.  Sorting neither drops nor merges entries: a successful
    [get_dependencies] returns a rearrangement of the collector endpoints in
    the cache, one entry per collector daemon, duplicates included. *)
Theorem X13_one_dependency_per_collector (m : CephadmOrchestrator)
    (spec : option TracingSpec) (dt : option string) (l : list string) :
  JaegerAgentService.get_dependencies m spec dt = Ok l →
  l ≡ₚ collector_endpoint <$> collectors m
  ∧ length l = length (get_daemons_by_type m "jaeger-collector").
Proof.
  rewrite get_dependencies_spec. destruct (decide _); [|done].
  intros [= <-]. split; [apply sorted_Permutation|].
  rewrite sorted_Permutation. by rewrite length_fmap.
Qed.

(** X14.  The inventory is consulted only for the hostnames of search-index
    records that carry no ip: any two inventories that agree on those
    hostnames give the same resolution. *)
Theorem X14_inventory_only_for_records_without_ip (m : CephadmOrchestrator)
    (inv : string → string) (ds : CephadmDaemonDeploySpec) :
  (∀ dd h, dd ∈ search_indexes m → needs_lookup dd → hostname dd = Some h →
           inv h = get_addr m h) →
  get_elasticsearch_nodes (with_get_addr m inv) ds = get_elasticsearch_nodes m ds.
Proof.
  intros Hinv. rewrite !get_elasticsearch_nodes_spec.
  change (search_indexes (with_get_addr m inv)) with (search_indexes m).
  destruct (decide _) as [Hall|Hall]; [|done].
  assert (es_endpoint (with_get_addr m inv) <$> search_indexes m
          = es_endpoint m <$> search_indexes m) as ->.
  { apply list_fmap_ext. intros i dd Hdd.
    assert (dd ∈ search_indexes m) as Hin by (by eapply list_elem_of_lookup_2).
    rewrite Forall_forall in Hall. destruct (Hall dd Hin) as [h Hh].
    unfold es_endpoint. rewrite Hh. cbn [default from_option id get_addr with_get_addr].
    destruct (ip dd) as [[|c a]|] eqn:Hip; [|done|].
    - by rewrite (Hinv dd h Hin (or_intror Hip) Hh).
    - by rewrite (Hinv dd h Hin (or_introl Hip) Hh). }
  by destruct (search_indexes m).
Qed.

End further_properties.

(** ** The further properties at concrete snapshots *)

Lemma X3_previous_outputs_overwritten_witness :
  let m := mk_mgr [collector "b" []; collector "a" []] ∅ in
  let stale := {| spec_daemon_type := "jaeger-agent"; service_name := "jaeger";
                  final_config := Some {[ "collector_nodes" := "old:1" ]};
                  deps := ["old:1"] |} in
  final_config (service_prepare_create SvcJaegerAgent m (fresh_spec "jaeger-agent" "jaeger")).1
  = final_config (service_prepare_create SvcJaegerAgent m stale).1.
Proof.
  intros m stale.
  destruct (X3_previous_outputs_overwritten SvcJaegerAgent m
              (fresh_spec "jaeger-agent" "jaeger") stale) as [_ Hcfg];
    [reflexivity | reflexivity | discriminate |].
  apply Hcfg. vm_compute. reflexivity.
Defined.

Lemma X5_collector_query_agree_witness :
  let m := mk_mgr [] {[ "jaeger" := {| es_nodes := Some "a:9200" |} ]} in
  (JaegerCollectorService.prepare_create m (fresh_spec "jaeger-collector" "jaeger")).2
  = (JaegerQueryService.prepare_create m (fresh_spec "jaeger-query" "jaeger")).2.
Proof.
  intros m.
  apply (X5_collector_query_agree m (fresh_spec "jaeger-collector" "jaeger")
           (fresh_spec "jaeger-query" "jaeger")); reflexivity.
Defined.

Lemma X7_agent_without_collectors_witness :
  let es := {| daemon_type := "elasticsearch"; hostname := None;
               ip := None; ports := [] |} in
  JaegerAgentService.get_dependencies (mk_mgr [es] ∅) None None = Ok [].
Proof.
  intros es.
  apply (X7_agent_without_collectors (mk_mgr [es] ∅)
           (fresh_spec "jaeger-agent" "jaeger") None None);
    vm_compute; reflexivity.
Defined.


Lemma X11_fallback_round_trip_witness :
  let m := mk_mgr [] {[ "jaeger" := {| es_nodes := Some ",a:9200,," |} ]} in
  let ds := fresh_spec "jaeger-query" "jaeger" in
  ∃ spec nodes toks,
    active_specs m !! service_name ds = Some spec
    ∧ es_nodes spec = Some nodes
    ∧ ["http://"; "http://a:9200"; "http://"; "http://"]
      = (λ tok, "http://" +:+ tok) <$> toks
    ∧ String.concat "," toks = nodes
    ∧ Forall (λ tok, char_in "," tok = false) toks.
Proof.
  intros m ds.
  apply (X11_fallback_round_trip m ds
           ["http://"; "http://a:9200"; "http://"; "http://"]);
    vm_compute; reflexivity.
Defined.

Lemma X13_one_dependency_per_collector_witness :
  let m := mk_mgr [collector "a" []; collector "a" [14250]; collector "a" []] ∅ in
  length ["a:14250"; "a:14250"; "a:14250"]
  = length (get_daemons_by_type m "jaeger-collector").
Proof.
  intros m.
  apply (X13_one_dependency_per_collector m None None
           ["a:14250"; "a:14250"; "a:14250"]).
  vm_compute. reflexivity.
Defined.

Lemma X14_inventory_only_for_records_without_ip_witness :
  let with_ip := {| daemon_type := "elasticsearch"; hostname := Some "es1";
                    ip := Some "10.0.0.2"; ports := [] |} in
  let no_ip := {| daemon_type := "elasticsearch"; hostname := Some "es2";
                  ip := None; ports := [] |} in
  let m := mk_mgr [with_ip; no_ip] ∅ in
  let inv := λ h, if String.eqb h "es2" then "addr-of-es2" else "elsewhere" in
  let ds := fresh_spec "jaeger-collector" "jaeger" in
  get_elasticsearch_nodes (with_get_addr m inv) ds = get_elasticsearch_nodes m ds.
Proof.
  intros with_ip no_ip m inv ds.
  apply (X14_inventory_only_for_records_without_ip m inv ds).
  intros dd h Hin Hneed Hh.
  change (search_indexes m) with [with_ip; no_ip] in Hin.
  apply elem_of_cons in Hin as [->|Hin].
  - destruct Hneed as [Hip|Hip]; discriminate Hip.
  - apply list_elem_of_singleton in Hin as ->.
    injection Hh as <-. reflexivity.
Defined.
